(** * hyundai_kia_connect_api: the backend contract [ApiImpl]

    A shallow embedding of [hyundai_kia_connect_api/ApiImpl.py]: the
    parameter-bag dataclasses, the base class [ApiImpl] with its mandatory
    and optional operations, and the reverse-geocoding helper
    [update_geocoded_location].

    Python objects live in a store ([gmap] from references to objects), the
    methods are computations in a state-and-exception monad over that store
    and a trace of the observable events (HTTP requests and debug records). *)

From Stdlib Require Import ZArith String Ascii List Bool.
From Stdlib Require Import Floats.SpecFloat.
From Stdlib Require Import DecimalString.
From stdpp Require Import base option gmap strings list fin_maps.

Open Scope string_scope.
Set Warnings "-register-all".

(** ** Python values *)

(** The numbers a coordinate or a decoded JSON number can be: Python's [int]
    (unbounded) and [float] (IEEE 754 binary64, here in the Standard
    Library's specification format). *)
Inductive pynum : Type :=
  | PyInt (z : Z)
  | PyFloat (f : spec_float).

(** The values [Response.json()] produces; a JSON object decodes to a [dict]
    with string keys, JSON [null] to [None]. *)
Inductive pyval : Type :=
  | PyNone
  | PyBool (b : bool)
  | PyNum (n : pynum)
  | PyStr (s : string)
  | PyList (l : list pyval)
  | PyDict (d : gmap string pyval).

(** Truth value of a number: zero of either kind is false, everything else
    (infinities and NaN included) is true. *)
Definition num_truthy (n : pynum) : bool :=
  match n with
  | PyInt z => negb (z =? 0)%Z
  | PyFloat (S754_zero _) => false
  | PyFloat _ => true
  end.

(** Truth value of an attribute typed [float = None]. *)
Definition truthy (x : option pynum) : bool :=
  match x with
  | None => false
  | Some n => num_truthy n
  end.

(** [str(int)]: decimal digits, with a leading minus sign when negative. *)
Definition str_int (z : Z) : string := NilZero.string_of_int (Z.to_int z).

Section PyStr.
(** [repr] of a [float] is the interpreter's shortest round-trip
    rendering; it is taken as a parameter. *)
Variable float_repr : spec_float → string.

Definition str (n : pynum) : string :=
  match n with
  | PyInt z => str_int z
  | PyFloat f => float_repr f
  end.
End PyStr.

(** ** The caller-owned objects *)

(** Modelled from the spec: [Token] ([Token.py]) is not among the sources at
    hand. It is the credential and session object created by [login]; the
    helper reads its [username], the rest is opaque to this interface. *)
Record Token : Type := mkToken {
  username : string;
  password : string;
  session : gmap string string;
}.

(** Modelled from the spec: [MonthTripInfo] and [DayTripInfo]
    ([Vehicle.py]) are not among the sources at hand; their content is
    opaque here. *)
Inductive MonthTripInfo : Type := mkMonthTripInfo (summary : pyval).
Inductive DayTripInfo : Type := mkDayTripInfo (summary : pyval).

(** Modelled from the spec: [Vehicle] ([Vehicle.py]) is not among the
    sources at hand. It is a mutable record of one vehicle's identity and
    last-known telemetry: location, geocoded address, trip information and
    the remaining telemetry. The coordinates default to [None]; [geocode] is
    [None] or a pair. *)
Record Vehicle : Type := mkVehicle {
  vehicle_id : string;
  vehicle_name : string;
  location_latitude : option pynum;
  location_longitude : option pynum;
  geocode : option (pyval * pyval);
  month_trip_info : option MonthTripInfo;
  day_trip_info : option DayTripInfo;
  telemetry : gmap string pyval;
}.

(** The assignment [vehicle.geocode = g] on the record. *)
Definition with_geocode (g : option (pyval * pyval)) (v : Vehicle) : Vehicle :=
  {| vehicle_id := vehicle_id v;
     vehicle_name := vehicle_name v;
     location_latitude := location_latitude v;
     location_longitude := location_longitude v;
     geocode := g;
     month_trip_info := month_trip_info v;
     day_trip_info := day_trip_info v;
     telemetry := telemetry v |}.

(** ** The store, the events and the monad *)

Definition ref : Type := positive.

Inductive obj : Type :=
  | OToken (t : Token)
  | OVehicle (v : Vehicle).

(** What [requests.get] hands back: the status line and the raw body. *)
Record Response : Type := mkResponse {
  status_code : Z;
  content : string;
}.

(** The four [_LOGGER.debug] records of the helper, by their arguments. *)
Inductive debug_record : Type :=
  | DbgRunning (url : string)
  | DbgRawResponse (r : Response)
  | DbgDecodeFailed
  | DbgJsonResponse (j : pyval).

Inductive event : Type :=
  | HttpGet (url : string)
  | Debug (m : debug_record).

(** The exceptions in play: the contract's own, the attribute error of an
    object of the wrong class, what [requests.get] raises (by class name),
    the decode error the helper handles, and any other built-in exception
    by class name ([ValueError], [RecursionError], ...). *)
Inductive exn : Type :=
  | NotImplementedError (msg : string)
  | AttributeError
  | RequestException (cls : string)
  | JSONDecodeError
  | BuiltinError (cls : string).

Record state : Type := mkState {
  heap : gmap ref obj;
  trace : list event;
}.

Inductive result (A : Type) : Type :=
  | Return (a : A)
  | Raise (e : exn).
Arguments Return {A} a.
Arguments Raise {A} e.

Definition M (A : Type) : Type := state → result A * state.

Definition ret {A} (a : A) : M A := λ s, (Return a, s).

Definition bind {A B} (m : M A) (k : A → M B) : M B :=
  λ s, match m s with
       | (Return a, s') => k a s'
       | (Raise e, s') => (Raise e, s')
       end.

Definition raise {A} (e : exn) : M A := λ s, (Raise e, s).

#[global] Instance M_ret : MRet M := @ret.
#[global] Instance M_bind : MBind M := λ A B k m, bind m k.

(** [try: body / except <catches>: handler / else: orelse]. *)
Definition try_except_else {A B} (body : M A) (catches : exn → bool)
    (handler : M B) (orelse : A → M B) : M B :=
  λ s, match body s with
       | (Return a, s') => orelse a s'
       | (Raise e, s') => if catches e then handler s' else (Raise e, s')
       end.

Definition emit (ev : event) : M unit :=
  λ s, (Return tt, {| heap := heap s; trace := trace s ++ [ev] |}).

Definition debug (m : debug_record) : M unit := emit (Debug m).

(** Reading the attributes of the object behind a reference; an object of
    another class has none of them. *)
Definition get_vehicle (vehicle : ref) : M Vehicle :=
  λ s, match heap s !! vehicle with
       | Some (OVehicle v) => (Return v, s)
       | _ => (Raise AttributeError, s)
       end.

Definition get_token (token : ref) : M Token :=
  λ s, match heap s !! token with
       | Some (OToken t) => (Return t, s)
       | _ => (Raise AttributeError, s)
       end.

(** [vehicle.geocode = g], in place. *)
Definition set_geocode (vehicle : ref) (g : option (pyval * pyval)) : M unit :=
  λ s, match heap s !! vehicle with
       | Some (OVehicle v) =>
           (Return tt,
            {| heap := <[vehicle := OVehicle (with_geocode g v)]> (heap s);
               trace := trace s |})
       | _ => (Raise AttributeError, s)
       end.

Definition is_JSONDecodeError (e : exn) : bool :=
  match e with JSONDecodeError => true | _ => false end.

(** ** The parameter-bag dataclasses *)

Module dt.
(** [datetime.time], by its fields. *)
Record time : Type := mkTime {
  hour : Z;
  minute : Z;
  second : Z;
  microsecond : Z;
}.
End dt.

Module ClimateRequestOptions.
Record t : Type := mk {
  set_temp : option spec_float;
  duration : option Z;
  defrost : option bool;
  climate : option bool;
  heating : option Z;
  front_left_seat : option Z;
  front_right_seat : option Z;
  rear_left_seat : option Z;
  rear_right_seat : option Z;
}.
(** The dataclass defaults: every field [None]. *)
Definition default : t :=
  mk None None None None None None None None None.
End ClimateRequestOptions.

Module WindowRequestOptions.
(** [WINDOW_STATE] ([const.py]) is not among the sources at hand and is
    taken as a parameter. *)
Record t (WINDOW_STATE : Type) : Type := mk {
  back_left : option WINDOW_STATE;
  back_right : option WINDOW_STATE;
  front_left : option WINDOW_STATE;
  front_right : option WINDOW_STATE;
}.
Arguments mk {WINDOW_STATE}.
Definition default {WINDOW_STATE : Type} : t WINDOW_STATE :=
  mk None None None None.
End WindowRequestOptions.

Module ScheduleChargingClimateRequestOptions.
Module DepartureOptions.
Record t : Type := mk {
  enabled : option bool;
  days : option (list Z);  (* Sun=0, Mon=1, ..., Sat=6 *)
  time : option dt.time;
}.
Definition default : t := mk None None None.
End DepartureOptions.

Record t : Type := mk {
  first_departure : option DepartureOptions.t;
  second_departure : option DepartureOptions.t;
  charging_enabled : option bool;
  off_peak_start_time : option dt.time;
  off_peak_end_time : option dt.time;
  off_peak_charge_only_enabled : option bool;
  climate_enabled : option bool;
  temperature : option spec_float;
  temperature_unit : option Z;
  defrost : option bool;
}.
Definition default : t :=
  mk None None None None None None None None None None.
End ScheduleChargingClimateRequestOptions.

(** ** Helpers of the package *)

(** Modelled from the spec: [utils.get_child_value] is not among the sources
    at hand. It is the tolerant field lookup: the value under [key] when
    [data] is a dict that has the key, and [None] (no error) otherwise. *)
Definition get_child_value (data : pyval) (key : string) : pyval :=
  match data with
  | PyDict d => default PyNone (d !! key)
  | _ => PyNone
  end.

(** ** The base class *)

Module ApiImpl.

(** Class attributes: [data_timezone = dt.timezone.utc] (as its offset in
    seconds) and [temperature_range = None]. *)
Definition data_timezone : Z := 0.
Definition temperature_range : option (list spec_float) := None.

Section Contract.
(** The enumerations of [const.py] are not among the sources at hand;
    the contract only passes their values along. *)
Context {WINDOW_STATE CHARGE_PORT_ACTION OrderStatus
         VALET_MODE_ACTION VEHICLE_LOCK_ACTION : Type}.

(** Login into cloud endpoints and return Token *)
Definition login (username password : string) : M ref :=
  raise (NotImplementedError "required").

(** Return all Vehicle instances for a given Token *)
Definition get_vehicles (token : ref) : M (list ref) :=
  raise (NotImplementedError "required").

(** Refresh the vehicle data provided in get_vehicles. *)
Definition refresh_vehicles (token : ref) (vehicles : list ref)
    : M (list ref) :=
  mret vehicles.

(** Get cached vehicle data and update Vehicle instance with it *)
Definition update_vehicle_with_cached_state (token vehicle : ref)
    : M unit :=
  raise (NotImplementedError "required").

Definition check_action_status (token vehicle : ref) (action_id : string)
    (synchronous : bool) (timeout : Z) : M (option OrderStatus) :=
  mret None.

(** Triggers the system to contact the car and get fresh data *)
Definition force_refresh_vehicle_state (token vehicle : ref) : M unit :=
  raise (NotImplementedError "required").

(** Lock or unlocks a vehicle. Returns the tracking ID *)
Definition lock_action (token vehicle : ref)
    (action : VEHICLE_LOCK_ACTION) : M string :=
  raise (NotImplementedError "required").

Definition start_climate (token vehicle : ref)
    (options : ClimateRequestOptions.t) : M string :=
  raise (NotImplementedError "required").

Definition stop_climate (token vehicle : ref) : M string :=
  raise (NotImplementedError "required").

Definition start_charge (token vehicle : ref) : M string :=
  raise (NotImplementedError "required").

Definition stop_charge (token vehicle : ref) : M string :=
  raise (NotImplementedError "required").

Definition set_charge_limits (token vehicle : ref) (ac dc : Z)
    : M string :=
  raise (NotImplementedError "required").

Definition set_charging_current (token vehicle : ref) (level : Z)
    : M (option string) :=
  mret None.

Definition set_windows_state (token vehicle : ref)
    (options : WindowRequestOptions.t WINDOW_STATE) : M (option string) :=
  mret None.

Definition charge_port_action (token vehicle : ref)
    (action : CHARGE_PORT_ACTION) : M (option string) :=
  mret None.

(** Annotated [-> None] with the body [return None]: [tt] stands for the
    one value of [NoneType]. *)
Definition update_month_trip_info (token vehicle : ref)
    (yyyymm_string : string) : M unit :=
  mret tt.

Definition update_day_trip_info (token vehicle : ref)
    (yyyymmdd_string : string) : M unit :=
  mret tt.

Definition schedule_charging_and_climate (token vehicle : ref)
    (options : ScheduleChargingClimateRequestOptions.t)
    : M (option string) :=
  mret None.

Definition start_hazard_lights (token vehicle : ref)
    : M (option string) :=
  mret None.

Definition start_hazard_lights_and_horn (token vehicle : ref)
    : M (option string) :=
  mret None.

Definition valet_mode_action (token vehicle : ref)
    (action : VALET_MODE_ACTION) : M (option string) :=
  mret None.
End Contract.

Section Geocoding.
(** The world outside the package: the interpreter's rendering of a
    float, what the geocoding service answers to a URL (a
    [requests] exception, by its class name, or a response), and what
    [Response.json()] does with a response: it returns the decoded value
    or raises, [JSONDecodeError] for a body that is not JSON and whatever
    else the decoder raises ([RecursionError], [ValueError], ...). *)
Variable float_repr : spec_float → string.
Variable network : string → string + Response.
Variable json : Response → exn + pyval.

(** [str] of a coordinate attribute. *)
Definition str_coord (x : option pynum) : string :=
  match x with
  | None => "None"
  | Some n => str float_repr n
  end.

Definition requests_get (url : string) : M Response :=
  emit (HttpGet url);;
  match network url with
  | inl cls => raise (RequestException cls)
  | inr r => mret r
  end.

Definition Response_json (r : Response) : M pyval :=
  match json r with
  | inr j => mret j
  | inl e => raise e
  end.

(** The string bound to [url] in the helper, as a function of the two
    coordinate attributes and of [email_parameter]. *)
Definition geocode_url (latitude longitude : option pynum)
    (email_parameter : string) : string :=
  "https://nominatim.openstreetmap.org/reverse?lat="
  ++ str_coord latitude
  ++ "&lon="
  ++ str_coord longitude
  ++ "&format=json&addressdetails=1&zoom=18"
  ++ email_parameter.

(** Uses OpenStreetMap to initialize vehicle.geocode. The static method
    takes [use_email: bool], so [use_email is True] is the boolean itself;
    [requests.get] sits before the [try], whose only handler is
    [except JSONDecodeError]. *)
Definition update_geocoded_location (token vehicle : ref)
    (use_email : bool) : M unit :=
  v ← get_vehicle vehicle;
  if truthy (location_latitude v) && truthy (location_longitude v) then
    email_parameter ←
      (if use_email
       then t ← get_token token; mret ("&email=" ++ username t)
       else mret "");
    let url :=
      geocode_url (location_latitude v) (location_longitude v)
                  email_parameter in
    debug (DbgRunning url);;
    response ← requests_get url;
    debug (DbgRawResponse response);;
    try_except_else (Response_json response) is_JSONDecodeError
      (debug DbgDecodeFailed;;
       set_geocode vehicle None)
      (λ response,
         debug (DbgJsonResponse response);;
         set_geocode vehicle
           (Some (get_child_value response "display_name",
                  get_child_value response "address")))
  else mret tt.
End Geocoding.

End ApiImpl.

(** * Vocabulary of the properties *)

(** The URL the helper requests for a token and a vehicle. *)
Definition requested_url (float_repr : spec_float → string)
    (use_email : bool) (t : Token) (v : Vehicle) : string :=
  ApiImpl.geocode_url float_repr (location_latitude v) (location_longitude v)
    (if use_email then "&email=" ++ username t else "").

(** The URLs of the HTTP requests recorded in a trace, in order. *)
Fixpoint requests (tr : list event) : list string :=
  match tr with
  | [] => []
  | HttpGet url :: tr' => url :: requests tr'
  | Debug _ :: tr' => requests tr'
  end.

(** [needle in hay]. *)
Definition contains (needle hay : string) : Prop :=
  ∃ pre post : string, hay = pre ++ needle ++ post.

Fixpoint mentions (c : ascii) (s : string) : bool :=
  match s with
  | EmptyString => false
  | String a s' => Ascii.eqb a c || mentions c s'
  end.

Fixpoint uses_only (alphabet s : string) : bool :=
  match s with
  | EmptyString => true
  | String a s' => mentions a alphabet && uses_only alphabet s'
  end.

(** The characters a float's rendering is made of: digits, sign, point,
    exponent mark, and the letters of [inf] and [nan]. *)
Definition float_alphabet : string := "0123456789.-+einfa".

Definition begins_with (c : ascii) (s : string) : bool :=
  match s with
  | EmptyString => false
  | String a _ => Ascii.eqb a c
  end.

(** Whether an ampersand directly followed by [e] occurs in the string. *)
Fixpoint has_amp_e (s : string) : bool :=
  match s with
  | EmptyString => false
  | String a s' => (Ascii.eqb a "&" && begins_with "e" s') || has_amp_e s'
  end.

(** A coordinate that holds a number whose truth value is false. *)
Definition falsy_but_set (x : option pynum) : Prop :=
  ∃ n, x = Some n ∧ num_truthy n = false.

(** Two vehicle records that agree on every field except [geocode]. *)
Definition same_but_geocode (v v' : Vehicle) : Prop :=
  vehicle_id v' = vehicle_id v
  ∧ vehicle_name v' = vehicle_name v
  ∧ location_latitude v' = location_latitude v
  ∧ location_longitude v' = location_longitude v
  ∧ month_trip_info v' = month_trip_info v
  ∧ day_trip_info v' = day_trip_info v
  ∧ telemetry v' = telemetry v.




(** ** Calls on the base instance *)

Section Calls.
Variables WINDOW_STATE CHARGE_PORT_ACTION OrderStatus
          VALET_MODE_ACTION VEHICLE_LOCK_ACTION : Type.

(** One constructor per method of [ApiImpl], with its arguments. *)
Inductive call : Type :=
  | Login (username password : string)
  | GetVehicles (token : ref)
  | RefreshVehicles (token : ref) (vehicles : list ref)
  | UpdateVehicleWithCachedState (token vehicle : ref)
  | CheckActionStatus (token vehicle : ref) (action_id : string)
      (synchronous : bool) (timeout : Z)
  | ForceRefreshVehicleState (token vehicle : ref)
  | UpdateGeocodedLocation (token vehicle : ref) (use_email : bool)
  | LockAction (token vehicle : ref) (action : VEHICLE_LOCK_ACTION)
  | StartClimate (token vehicle : ref) (options : ClimateRequestOptions.t)
  | StopClimate (token vehicle : ref)
  | StartCharge (token vehicle : ref)
  | StopCharge (token vehicle : ref)
  | SetChargeLimits (token vehicle : ref) (ac dc : Z)
  | SetChargingCurrent (token vehicle : ref) (level : Z)
  | SetWindowsState (token vehicle : ref)
      (options : WindowRequestOptions.t WINDOW_STATE)
  | ChargePortAction (token vehicle : ref) (action : CHARGE_PORT_ACTION)
  | UpdateMonthTripInfo (token vehicle : ref) (yyyymm_string : string)
  | UpdateDayTripInfo (token vehicle : ref) (yyyymmdd_string : string)
  | ScheduleChargingAndClimate (token vehicle : ref)
      (options : ScheduleChargingClimateRequestOptions.t)
  | StartHazardLights (token vehicle : ref)
  | StartHazardLightsAndHorn (token vehicle : ref)
  | ValetModeAction (token vehicle : ref) (action : VALET_MODE_ACTION).

Variable float_repr : spec_float → string.
Variable network : string → string + Response.
Variable json : Response → exn + pyval.

(** The state a call leaves behind, whether it returns or raises. *)
Definition state_after (c : call) (s : state) : state :=
  match c with
  | Login u p => (ApiImpl.login u p s).2
  | GetVehicles tk => (ApiImpl.get_vehicles tk s).2
  | RefreshVehicles tk vs => (ApiImpl.refresh_vehicles tk vs s).2
  | UpdateVehicleWithCachedState tk vh =>
      (ApiImpl.update_vehicle_with_cached_state tk vh s).2
  | CheckActionStatus tk vh a sy ti =>
      (ApiImpl.check_action_status (OrderStatus := OrderStatus)
         tk vh a sy ti s).2
  | ForceRefreshVehicleState tk vh =>
      (ApiImpl.force_refresh_vehicle_state tk vh s).2
  | UpdateGeocodedLocation tk vh e =>
      (ApiImpl.update_geocoded_location float_repr network json tk vh e s).2
  | LockAction tk vh a => (ApiImpl.lock_action tk vh a s).2
  | StartClimate tk vh o => (ApiImpl.start_climate tk vh o s).2
  | StopClimate tk vh => (ApiImpl.stop_climate tk vh s).2
  | StartCharge tk vh => (ApiImpl.start_charge tk vh s).2
  | StopCharge tk vh => (ApiImpl.stop_charge tk vh s).2
  | SetChargeLimits tk vh ac dc => (ApiImpl.set_charge_limits tk vh ac dc s).2
  | SetChargingCurrent tk vh l => (ApiImpl.set_charging_current tk vh l s).2
  | SetWindowsState tk vh o => (ApiImpl.set_windows_state tk vh o s).2
  | ChargePortAction tk vh a => (ApiImpl.charge_port_action tk vh a s).2
  | UpdateMonthTripInfo tk vh m => (ApiImpl.update_month_trip_info tk vh m s).2
  | UpdateDayTripInfo tk vh d => (ApiImpl.update_day_trip_info tk vh d s).2
  | ScheduleChargingAndClimate tk vh o =>
      (ApiImpl.schedule_charging_and_climate tk vh o s).2
  | StartHazardLights tk vh => (ApiImpl.start_hazard_lights tk vh s).2
  | StartHazardLightsAndHorn tk vh =>
      (ApiImpl.start_hazard_lights_and_horn tk vh s).2
  | ValetModeAction tk vh a => (ApiImpl.valet_mode_action tk vh a s).2
  end.
End Calls.

(** The outcome of a method whose body is [raise NotImplementedError("required")]. *)
Definition not_implemented {A : Type} (s : state) : result A * state :=
  (Raise (NotImplementedError "required"), s).

(** The vehicle object behind a reference, if it is one. *)
Definition vehicle_at (s : state) (vehicle : ref) : option Vehicle :=
  match heap s !! vehicle with
  | Some (OVehicle v) => Some v
  | _ => None
  end.

(** ** Sample objects *)

Definition sample_token : Token :=
  {| username := "driver@example.org"; password := "secret"; session := ∅ |}.

(** A vehicle parked at latitude 48.5, longitude 2.5, geocoded earlier. *)
Definition sample_vehicle : Vehicle :=
  {| vehicle_id := "vehicle-1";
     vehicle_name := "Car";
     location_latitude := Some (PyFloat (S754_finite false 97 (-1)));
     location_longitude := Some (PyFloat (S754_finite false 5 (-1)));
     geocode := Some (PyStr "somewhere", PyNone);
     month_trip_info := None;
     day_trip_info := None;
     telemetry := {[ "odometer" := PyNum (PyInt 12000) ]} |}.

Definition with_latitude (x : option pynum) (v : Vehicle) : Vehicle :=
  {| vehicle_id := vehicle_id v;
     vehicle_name := vehicle_name v;
     location_latitude := x;
     location_longitude := location_longitude v;
     geocode := geocode v;
     month_trip_info := month_trip_info v;
     day_trip_info := day_trip_info v;
     telemetry := telemetry v |}.

Definition sample_token_ref : ref := 1%positive.
Definition sample_vehicle_ref : ref := 2%positive.

Definition sample_state_of (v : Vehicle) : state :=
  {| heap := {[ sample_token_ref := OToken sample_token;
                sample_vehicle_ref := OVehicle v ]};
     trace := [] |}.

Definition sample_state : state := sample_state_of sample_vehicle.

Definition vehicle_without_latitude : Vehicle :=
  with_latitude None sample_vehicle.
Definition vehicle_on_equator : Vehicle :=
  with_latitude (Some (PyInt 0)) sample_vehicle.

(** A rendering that agrees with the interpreter on the zeros, the
    infinities, NaN and the two sample coordinates. *)
Definition sample_float_repr (f : spec_float) : string :=
  match f with
  | S754_zero false => "0.0"
  | S754_zero true => "-0.0"
  | S754_infinity false => "inf"
  | S754_infinity true => "-inf"
  | S754_nan => "nan"
  | S754_finite sign m e =>
      (if sign then "-" else "")
      ++ (if (m =? 97)%positive && (e =? -1)%Z then "48.5"
          else if (m =? 5)%positive && (e =? -1)%Z then "2.5"
          else "1e+22")
  end.

Definition sample_response : Response :=
  {| status_code := 200;
     content := "<body of the reverse-geocoding answer>" |}.

Definition sample_body : gmap string pyval :=
  {[ "display_name" := PyStr "123 Main St";
     "address" := PyDict {[ "city" := PyStr "Springfield" ]} ]}.

Definition service_answers (r : Response) : string → string + Response :=
  λ _, inr r.
Definition service_unreachable : string → string + Response :=
  λ _, inl "ConnectionError".
Definition decodes_to (j : pyval) : Response → exn + pyval := λ _, inr j.
Definition undecodable : Response → exn + pyval := λ _, inl JSONDecodeError.

(** * Properties *)

(** ** Running the helper, case by case *)

#[local] Ltac unfold_monad :=
  unfold ApiImpl.update_geocoded_location, ApiImpl.requests_get,
    ApiImpl.Response_json, try_except_else, debug, emit, set_geocode,
    get_vehicle, get_token, mbind, mret, M_bind, M_ret, bind, ret, raise.

Lemma is_JSONDecodeError_true (e : exn) :
  is_JSONDecodeError e = true → e = JSONDecodeError.
Proof. destruct e; simpl; congruence. Qed.

Section GeocodingRuns.
Variable float_repr : spec_float → string.
Variable network : string → string + Response.
Variable json : Response → exn + pyval.

Variables token vehicle : ref.
Variable use_email : bool.
Variable s : state.
Variable t : Token.
Variable v : Vehicle.
Hypothesis token_object : heap s !! token = Some (OToken t).
Hypothesis vehicle_object : heap s !! vehicle = Some (OVehicle v).

#[local] Abbreviation url := (requested_url float_repr use_email t v).
#[local] Abbreviation run :=
  (ApiImpl.update_geocoded_location float_repr network json
     token vehicle use_email).

Lemma geocode_guard_closed :
  truthy (location_latitude v) && truthy (location_longitude v) = false →
  run s = (Return tt, s).
Proof using vehicle_object.
  intros Hguard. unfold_monad.
  rewrite vehicle_object, Hguard. reflexivity.
Qed.

Section GuardOpen.
Hypothesis latitude_truthy : truthy (location_latitude v) = true.
Hypothesis longitude_truthy : truthy (location_longitude v) = true.

Lemma geocode_network_error cls :
  network url = inl cls →
  run s = (Raise (RequestException cls),
           {| heap := heap s;
              trace := trace s ++ [Debug (DbgRunning url);
                                   HttpGet url] |}).
Proof using token_object vehicle_object latitude_truthy longitude_truthy.
  intros Hnet. unfold requested_url in *. unfold_monad.
  rewrite vehicle_object, latitude_truthy, longitude_truthy. simpl.
  destruct use_email; simpl; [rewrite token_object|]; simpl;
    rewrite Hnet; rewrite <- app_assoc; reflexivity.
Qed.

Lemma geocode_decode_failure r :
  network url = inr r →
  json r = inl JSONDecodeError →
  run s = (Return tt,
           {| heap := <[vehicle := OVehicle (with_geocode None v)]> (heap s);
              trace := trace s ++ [Debug (DbgRunning url);
                                   HttpGet url;
                                   Debug (DbgRawResponse r);
                                   Debug DbgDecodeFailed] |}).
Proof using token_object vehicle_object latitude_truthy longitude_truthy.
  intros Hnet Hjson. unfold requested_url in *. unfold_monad.
  rewrite vehicle_object, latitude_truthy, longitude_truthy. simpl.
  destruct use_email; simpl; [rewrite token_object|]; simpl;
    rewrite Hnet, Hjson; simpl; rewrite vehicle_object;
    rewrite <- !app_assoc; reflexivity.
Qed.

Lemma geocode_decoded r j :
  network url = inr r →
  json r = inr j →
  run s = (Return tt,
           {| heap := <[vehicle :=
                          OVehicle
                            (with_geocode
                               (Some (get_child_value j "display_name",
                                      get_child_value j "address")) v)]>
                        (heap s);
              trace := trace s ++ [Debug (DbgRunning url);
                                   HttpGet url;
                                   Debug (DbgRawResponse r);
                                   Debug (DbgJsonResponse j)] |}).
Proof using token_object vehicle_object latitude_truthy longitude_truthy.
  intros Hnet Hjson. unfold requested_url in *. unfold_monad.
  rewrite vehicle_object, latitude_truthy, longitude_truthy. simpl.
  destruct use_email; simpl; [rewrite token_object|]; simpl;
    rewrite Hnet, Hjson; simpl; rewrite vehicle_object;
    rewrite <- !app_assoc; reflexivity.
Qed.

Lemma geocode_decoder_raises r e :
  network url = inr r →
  json r = inl e →
  is_JSONDecodeError e = false →
  run s = (Raise e,
           {| heap := heap s;
              trace := trace s ++ [Debug (DbgRunning url);
                                   HttpGet url;
                                   Debug (DbgRawResponse r)] |}).
Proof using token_object vehicle_object latitude_truthy longitude_truthy.
  intros Hnet Hjson He. unfold requested_url in *. unfold_monad.
  rewrite vehicle_object, latitude_truthy, longitude_truthy. simpl.
  destruct use_email; simpl; [rewrite token_object|]; simpl;
    rewrite Hnet, Hjson; simpl; rewrite He;
    rewrite <- !app_assoc; reflexivity.
Qed.
End GuardOpen.
End GeocodingRuns.

(** ** The contract's defaults *)

Section Defaults.
Context {WINDOW_STATE CHARGE_PORT_ACTION OrderStatus
         VALET_MODE_ACTION VEHICLE_LOCK_ACTION : Type}.

(** C3: on the base instance every mandatory operation (login,
    get_vehicles, update_vehicle_with_cached_state,
    force_refresh_vehicle_state, lock_action, start_climate, stop_climate,
    start_charge, stop_charge, set_charge_limits) raises
    NotImplementedError, for all arguments and from every state, before
    anything else happens. *)
Theorem mandatory_operations_not_implemented (s : state) :
  (∀ username password, ApiImpl.login username password s = not_implemented s)
  ∧ (∀ token, ApiImpl.get_vehicles token s = not_implemented s)
  ∧ (∀ token vehicle,
       ApiImpl.update_vehicle_with_cached_state token vehicle s
       = not_implemented s)
  ∧ (∀ token vehicle,
       ApiImpl.force_refresh_vehicle_state token vehicle s
       = not_implemented s)
  ∧ (∀ token vehicle (action : VEHICLE_LOCK_ACTION),
       ApiImpl.lock_action token vehicle action s = not_implemented s)
  ∧ (∀ token vehicle options,
       ApiImpl.start_climate token vehicle options s = not_implemented s)
  ∧ (∀ token vehicle, ApiImpl.stop_climate token vehicle s = not_implemented s)
  ∧ (∀ token vehicle, ApiImpl.start_charge token vehicle s = not_implemented s)
  ∧ (∀ token vehicle, ApiImpl.stop_charge token vehicle s = not_implemented s)
  ∧ (∀ token vehicle ac dc,
       ApiImpl.set_charge_limits token vehicle ac dc s = not_implemented s).
Proof. repeat split. Qed.

(** C4: on the base instance every optional operation returns None and
    does not raise, for all arguments; check_action_status does so for
    every value of synchronous and timeout. *)
Theorem optional_operations_return_none (s : state) (token vehicle : ref) :
  (∀ action_id synchronous timeout,
     (ApiImpl.check_action_status token vehicle action_id synchronous
        timeout s).1 = Return (@None OrderStatus))
  ∧ (∀ level,
       (ApiImpl.set_charging_current token vehicle level s).1 = Return None)
  ∧ (∀ options : WindowRequestOptions.t WINDOW_STATE,
       (ApiImpl.set_windows_state token vehicle options s).1 = Return None)
  ∧ (∀ action : CHARGE_PORT_ACTION,
       (ApiImpl.charge_port_action token vehicle action s).1 = Return None)
  ∧ (∀ yyyymm_string,
       (ApiImpl.update_month_trip_info token vehicle yyyymm_string s).1
       = Return tt)
  ∧ (∀ yyyymmdd_string,
       (ApiImpl.update_day_trip_info token vehicle yyyymmdd_string s).1
       = Return tt)
  ∧ (∀ options,
       (ApiImpl.schedule_charging_and_climate token vehicle options s).1
       = Return None)
  ∧ (ApiImpl.start_hazard_lights token vehicle s).1 = Return None
  ∧ (ApiImpl.start_hazard_lights_and_horn token vehicle s).1 = Return None
  ∧ (∀ action : VALET_MODE_ACTION,
       (ApiImpl.valet_mode_action token vehicle action s).1 = Return None).
Proof. repeat split. Qed.

(** C10: the default optional operations have no side effect: the store
    (every Vehicle and every Token) and the trace are the same after the
    call; in particular update_month_trip_info and update_day_trip_info
    leave the vehicle's month_trip_info and day_trip_info as they were. *)
Theorem optional_operations_leave_state (s : state) (token vehicle : ref) :
  (∀ action_id synchronous timeout,
     (ApiImpl.check_action_status (OrderStatus := OrderStatus)
        token vehicle action_id synchronous timeout s).2 = s)
  ∧ (∀ level, (ApiImpl.set_charging_current token vehicle level s).2 = s)
  ∧ (∀ options : WindowRequestOptions.t WINDOW_STATE,
       (ApiImpl.set_windows_state token vehicle options s).2 = s)
  ∧ (∀ action : CHARGE_PORT_ACTION,
       (ApiImpl.charge_port_action token vehicle action s).2 = s)
  ∧ (∀ yyyymm_string,
       (ApiImpl.update_month_trip_info token vehicle yyyymm_string s).2 = s)
  ∧ (∀ yyyymmdd_string,
       (ApiImpl.update_day_trip_info token vehicle yyyymmdd_string s).2 = s)
  ∧ (∀ options,
       (ApiImpl.schedule_charging_and_climate token vehicle options s).2 = s)
  ∧ (ApiImpl.start_hazard_lights token vehicle s).2 = s
  ∧ (ApiImpl.start_hazard_lights_and_horn token vehicle s).2 = s
  ∧ (∀ action : VALET_MODE_ACTION,
       (ApiImpl.valet_mode_action token vehicle action s).2 = s)
  ∧ (∀ yyyymm_string,
       month_trip_info <$>
         vehicle_at
           (ApiImpl.update_month_trip_info token vehicle yyyymm_string s).2
           vehicle
       = month_trip_info <$> vehicle_at s vehicle)
  ∧ (∀ yyyymmdd_string,
       day_trip_info <$>
         vehicle_at
           (ApiImpl.update_day_trip_info token vehicle yyyymmdd_string s).2
           vehicle
       = day_trip_info <$> vehicle_at s vehicle).
Proof. repeat split. Qed.
End Defaults.

(** C5: on the base instance refresh_vehicles returns its vehicle-list
    argument as it is, the empty list included, and changes nothing. *)
Theorem refresh_vehicles_identity (s : state) (token : ref)
    (vehicles : list ref) :
  ApiImpl.refresh_vehicles token vehicles s = (Return vehicles, s)
  ∧ ApiImpl.refresh_vehicles token [] s = (Return [], s).
Proof. split; reflexivity. Qed.

(** ** The guard of the geocoding helper *)

(** C6: for a vehicle whose location_latitude or location_longitude is
    None the helper does nothing: it returns normally and the state is the
    one it started from, so geocode is untouched and the trace has no new
    HTTP request. *)
Theorem unset_coordinate_is_noop float_repr network json
    (token vehicle : ref) (use_email : bool) (s : state) (v : Vehicle) :
  heap s !! vehicle = Some (OVehicle v) →
  location_latitude v = None ∨ location_longitude v = None →
  ApiImpl.update_geocoded_location float_repr network json
    token vehicle use_email s = (Return tt, s).
Proof.
  intros Hv Hunset. apply geocode_guard_closed with (v := v); [exact Hv|].
  destruct Hunset as [-> | ->]; simpl; [reflexivity | apply andb_false_r].
Qed.

Lemma unset_coordinate_is_noop_witness :
  heap (sample_state_of vehicle_without_latitude) !! sample_vehicle_ref
    = Some (OVehicle vehicle_without_latitude)
  ∧ (location_latitude vehicle_without_latitude = None
     ∨ location_longitude vehicle_without_latitude = None)
  ∧ ApiImpl.update_geocoded_location sample_float_repr
      (service_answers sample_response) undecodable
      sample_token_ref sample_vehicle_ref true
      (sample_state_of vehicle_without_latitude)
    = (Return tt, sample_state_of vehicle_without_latitude).
Proof.
  split; [reflexivity|]. split; [left; reflexivity|].
  apply (unset_coordinate_is_noop sample_float_repr
           (service_answers sample_response) undecodable
           sample_token_ref sample_vehicle_ref true
           (sample_state_of vehicle_without_latitude)
           vehicle_without_latitude);
    [reflexivity | left; reflexivity].
Defined.

(** C9: a coordinate that is set but falsy, such as the integer 0 or the
    float 0.0, closes the guard just as None does: the helper returns
    normally from an unchanged state, with no HTTP request and geocode
    untouched. *)
Theorem falsy_coordinate_is_noop float_repr network json
    (token vehicle : ref) (use_email : bool) (s : state) (v : Vehicle) :
  heap s !! vehicle = Some (OVehicle v) →
  falsy_but_set (location_latitude v) ∨ falsy_but_set (location_longitude v) →
  (falsy_but_set (Some (PyInt 0))
   ∧ falsy_but_set (Some (PyFloat (S754_zero false))))
  ∧ ApiImpl.update_geocoded_location float_repr network json
      token vehicle use_email s = (Return tt, s).
Proof.
  intros Hv Hfalsy. split.
  - split; eexists; split; reflexivity.
  - apply geocode_guard_closed with (v := v); [exact Hv|].
    destruct Hfalsy as [(n & -> & Hn) | (n & -> & Hn)]; simpl; rewrite Hn;
      [reflexivity | apply andb_false_r].
Qed.

Lemma falsy_coordinate_is_noop_witness :
  heap (sample_state_of vehicle_on_equator) !! sample_vehicle_ref
    = Some (OVehicle vehicle_on_equator)
  ∧ (falsy_but_set (location_latitude vehicle_on_equator)
     ∨ falsy_but_set (location_longitude vehicle_on_equator))
  ∧ ApiImpl.update_geocoded_location sample_float_repr
      (service_answers sample_response) (decodes_to (PyDict sample_body))
      sample_token_ref sample_vehicle_ref false
      (sample_state_of vehicle_on_equator)
    = (Return tt, sample_state_of vehicle_on_equator).
Proof.
  assert (Hfalsy : falsy_but_set (location_latitude vehicle_on_equator)
                   ∨ falsy_but_set (location_longitude vehicle_on_equator)).
  { left. exists (PyInt 0). split; reflexivity. }
  split; [reflexivity|]. split; [exact Hfalsy|].
  apply (falsy_coordinate_is_noop sample_float_repr
           (service_answers sample_response) (decodes_to (PyDict sample_body))
           sample_token_ref sample_vehicle_ref false
           (sample_state_of vehicle_on_equator) vehicle_on_equator
           eq_refl Hfalsy).
Defined.

(** ** Outcomes of the geocoding step *)

Lemma with_geocode_same_but_geocode g v : same_but_geocode v (with_geocode g v).
Proof. repeat split. Qed.



(** At the sample objects, with the service unreachable: the exception of
    the GET comes out of the helper and the store is as it was. *)
Example network_error_at_sample :
  ApiImpl.update_geocoded_location sample_float_repr service_unreachable
    undecodable sample_token_ref sample_vehicle_ref true sample_state
  = (Raise (RequestException "ConnectionError"),
     {| heap := heap sample_state;
        trace :=
          [Debug (DbgRunning "https://nominatim.openstreetmap.org/reverse?lat=48.5&lon=2.5&format=json&addressdetails=1&zoom=18&email=driver@example.org");
           HttpGet "https://nominatim.openstreetmap.org/reverse?lat=48.5&lon=2.5&format=json&addressdetails=1&zoom=18&email=driver@example.org"] |}).
Proof. reflexivity. Qed.


(** C2: with both coordinates truthy, when the GET returns a response whose
    body decodes to a JSON object, the helper returns normally and the
    vehicle's geocode is the pair of the object's display_name and address;
    a field that is missing gives None in its place. For the object
    {display_name: 123 Main St, address: {city: Springfield}} the pair is
    (123 Main St, {city: Springfield}). No other field of the vehicle
    changes. *)
Theorem geocode_set_from_response float_repr network json
    (token vehicle : ref) (use_email : bool) (s : state)
    (t : Token) (v : Vehicle) (r : Response) (d : gmap string pyval) :
  heap s !! token = Some (OToken t) →
  heap s !! vehicle = Some (OVehicle v) →
  truthy (location_latitude v) = true →
  truthy (location_longitude v) = true →
  network (requested_url float_repr use_email t v) = inr r →
  json r = inr (PyDict d) →
  ∃ display_name address : pyval,
    ApiImpl.update_geocoded_location float_repr network json
      token vehicle use_email s
    = (Return tt,
       {| heap := <[vehicle :=
                      OVehicle (with_geocode (Some (display_name, address)) v)]>
                    (heap s);
          trace := trace s
                   ++ [Debug (DbgRunning (requested_url float_repr use_email t v));
                       HttpGet (requested_url float_repr use_email t v);
                       Debug (DbgRawResponse r);
                       Debug (DbgJsonResponse (PyDict d))] |})
    ∧ (∃ v',
         heap (ApiImpl.update_geocoded_location float_repr network json
                 token vehicle use_email s).2 !! vehicle
         = Some (OVehicle v')
         ∧ geocode v' = Some (display_name, address)
         ∧ same_but_geocode v v')
    ∧ (∀ x, d !! "display_name" = Some x → display_name = x)
    ∧ (d !! "display_name" = None → display_name = PyNone)
    ∧ (∀ x, d !! "address" = Some x → address = x)
    ∧ (d !! "address" = None → address = PyNone)
    ∧ (d = sample_body →
       display_name = PyStr "123 Main St"
       ∧ address = PyDict {[ "city" := PyStr "Springfield" ]}).
Proof.
  intros Ht Hv Hlat Hlon Hnet Hjson.
  exists (get_child_value (PyDict d) "display_name"),
         (get_child_value (PyDict d) "address").
  rewrite (geocode_decoded float_repr network json token vehicle use_email
             s t v Ht Hv Hlat Hlon r (PyDict d) Hnet Hjson).
  split; [reflexivity |].
  split.
  { eexists. simpl. rewrite lookup_insert_eq.
    split; [reflexivity |]. split; [reflexivity |].
    apply with_geocode_same_but_geocode. }
  unfold get_child_value.
  split; [by intros x -> |]. split; [by intros -> |].
  split; [by intros x -> |]. split; [by intros -> |].
  intros ->. split; reflexivity.
Qed.

Lemma geocode_set_from_response_witness :
  heap sample_state !! sample_token_ref = Some (OToken sample_token)
  ∧ heap sample_state !! sample_vehicle_ref = Some (OVehicle sample_vehicle)
  ∧ truthy (location_latitude sample_vehicle) = true
  ∧ truthy (location_longitude sample_vehicle) = true
  ∧ service_answers sample_response
      (requested_url sample_float_repr true sample_token sample_vehicle)
    = inr sample_response
  ∧ decodes_to (PyDict sample_body) sample_response
    = inr (PyDict sample_body)
  ∧ ∃ v',
      heap (ApiImpl.update_geocoded_location sample_float_repr
              (service_answers sample_response)
              (decodes_to (PyDict sample_body))
              sample_token_ref sample_vehicle_ref true sample_state).2
        !! sample_vehicle_ref
      = Some (OVehicle v')
      ∧ geocode v'
        = Some (PyStr "123 Main St",
                PyDict {[ "city" := PyStr "Springfield" ]})
      ∧ same_but_geocode sample_vehicle v'.
Proof.
  repeat (split; [reflexivity|]).
  destruct (geocode_set_from_response sample_float_repr
              (service_answers sample_response)
              (decodes_to (PyDict sample_body))
              sample_token_ref sample_vehicle_ref true sample_state
              sample_token sample_vehicle sample_response sample_body
              eq_refl eq_refl eq_refl eq_refl eq_refl eq_refl)
    as (display_name & address & _ & (v' & Hlookup & Hgeocode & Hsame)
        & _ & _ & _ & _ & Hsample).
  destruct (Hsample eq_refl) as [Hname Haddress].
  exists v'. split; [exact Hlookup |].
  split; [by rewrite Hgeocode, Hname, Haddress | exact Hsame].
Defined.

(** ** The token is read-only *)

(** Whatever the store holds and whatever the service answers, the helper
    leaves the store as it is or replaces the vehicle object by itself with
    a new geocode. *)
Lemma geocode_store_frame float_repr network json
    (token vehicle : ref) (use_email : bool) (s : state) :
  heap (ApiImpl.update_geocoded_location float_repr network json
          token vehicle use_email s).2 = heap s
  ∨ ∃ v g,
      heap s !! vehicle = Some (OVehicle v)
      ∧ heap (ApiImpl.update_geocoded_location float_repr network json
                token vehicle use_email s).2
        = <[vehicle := OVehicle (with_geocode g v)]> (heap s).
Proof.
  unfold_monad.
  destruct (heap s !! vehicle) as [[tk | v] | ] eqn:Hv; simpl;
    try (left; reflexivity).
  destruct (truthy (location_latitude v) && truthy (location_longitude v));
    simpl; [| left; reflexivity].
  destruct use_email; simpl.
  - destruct (heap s !! token) as [[t | v0] | ] eqn:Ht; simpl;
      try (left; reflexivity).
    destruct (network _) as [cls | r]; simpl; [left; reflexivity |].
    destruct (json r) as [e | j]; simpl;
      [destruct (is_JSONDecodeError e); simpl; [| left; reflexivity] |];
      rewrite Hv; simpl; right; eexists _, _; split; reflexivity.
  - destruct (network _) as [cls | r]; simpl; [left; reflexivity |].
    destruct (json r) as [e | j]; simpl;
      [destruct (is_JSONDecodeError e); simpl; [| left; reflexivity] |];
      rewrite Hv; simpl; right; eexists _, _; split; reflexivity.
Qed.

(** C8: no operation of the base contract changes a Token: whichever
    method is called, with whatever arguments, a reference that held a
    token before the call holds the same token, field for field, after the
    call has returned or raised. *)
Theorem token_never_mutated
    (WINDOW_STATE CHARGE_PORT_ACTION OrderStatus
     VALET_MODE_ACTION VEHICLE_LOCK_ACTION : Type)
    float_repr network json
    (c : call WINDOW_STATE CHARGE_PORT_ACTION VALET_MODE_ACTION
              VEHICLE_LOCK_ACTION)
    (s : state) (l : ref) (t : Token) :
  heap s !! l = Some (OToken t) →
  heap (state_after WINDOW_STATE CHARGE_PORT_ACTION OrderStatus
          VALET_MODE_ACTION VEHICLE_LOCK_ACTION
          float_repr network json c s) !! l = Some (OToken t).
Proof.
  intros Hl. destruct c; simpl; try exact Hl.
  destruct (geocode_store_frame float_repr network json token vehicle
              use_email s) as [-> | (v & g & Hv & ->)]; [exact Hl |].
  rewrite lookup_insert_ne; [exact Hl |].
  intros <-. rewrite Hv in Hl. discriminate Hl.
Qed.

Lemma token_never_mutated_witness :
  heap sample_state !! sample_token_ref = Some (OToken sample_token)
  ∧ heap (state_after unit unit unit unit unit sample_float_repr
            (service_answers sample_response)
            (decodes_to (PyDict sample_body))
            (UpdateGeocodedLocation unit unit unit unit
               sample_token_ref sample_vehicle_ref true)
            sample_state) !! sample_token_ref
    = Some (OToken sample_token).
Proof.
  split; [reflexivity |].
  apply (token_never_mutated unit unit unit unit unit sample_float_repr
           (service_answers sample_response)
           (decodes_to (PyDict sample_body))
           (UpdateGeocodedLocation unit unit unit unit
              sample_token_ref sample_vehicle_ref true)
           sample_state sample_token_ref sample_token eq_refl).
Defined.

(** ** The request URL *)

#[local] Arguments String.append !_ _ : simpl nomatch.

Lemma contains_intro (pre needle post : string) :
  contains needle (pre ++ needle ++ post).
Proof. exists pre, post. reflexivity. Qed.

Lemma string_app_assoc (a b c : string) : (a ++ b) ++ c = a ++ b ++ c.
Proof. induction a as [| x a IH]; [reflexivity | simpl; f_equal; exact IH]. Qed.

Lemma string_app_empty_r (a : string) : a ++ "" = a.
Proof. induction a as [| x a IH]; [reflexivity | simpl; f_equal; exact IH]. Qed.

Lemma has_amp_e_of_contains (w hay : string) :
  contains ("&e" ++ w) hay → has_amp_e hay = true.
Proof.
  intros (pre & post & ->).
  induction pre as [| x pre IH]; simpl.
  - reflexivity.
  - simpl in IH. rewrite IH. apply orb_true_r.
Qed.

Lemma has_amp_e_skip (a b : string) :
  mentions "&" a = false → has_amp_e (a ++ b) = has_amp_e b.
Proof.
  induction a as [| x a IH]; simpl; [reflexivity |].
  intros [Hx Ha]%orb_false_iff. rewrite Hx. simpl. apply IH, Ha.
Qed.

Lemma uses_only_excludes (alphabet s : string) (c : ascii) :
  uses_only alphabet s = true →
  mentions c alphabet = false →
  mentions c s = false.
Proof.
  intros Hs Hc. induction s as [| x s IH]; simpl in *; [reflexivity |].
  apply andb_true_iff in Hs as [Hx Hs]. rewrite (IH Hs), orb_false_r.
  destruct (Ascii.eqb_spec x c) as [-> | _]; [congruence | reflexivity].
Qed.

Lemma digits_of_uint (d : Decimal.uint) :
  uses_only float_alphabet (NilEmpty.string_of_uint d) = true.
Proof. induction d; simpl; [reflexivity | assumption ..]. Qed.

Lemma digits_of_uint_or_zero (d : Decimal.uint) :
  uses_only float_alphabet (NilZero.string_of_uint d) = true.
Proof. destruct d; [reflexivity | apply (digits_of_uint (_ d)) ..]. Qed.

Lemma str_int_alphabet (z : Z) : uses_only float_alphabet (str_int z) = true.
Proof.
  unfold str_int, NilZero.string_of_int.
  destruct (Z.to_int z) as [d | d].
  - apply digits_of_uint_or_zero.
  - change (mentions "-" float_alphabet
            && uses_only float_alphabet (NilZero.string_of_uint d) = true).
    rewrite digits_of_uint_or_zero. reflexivity.
Qed.

Section RequestUrl.
Variable float_repr : spec_float → string.
Hypothesis float_repr_alphabet :
  ∀ f, uses_only float_alphabet (float_repr f) = true.

Lemma str_coord_no_ampersand (x : option pynum) :
  mentions "&" (ApiImpl.str_coord float_repr x) = false.
Proof using float_repr_alphabet.
  destruct x as [[z | f] | ]; simpl; [| | reflexivity].
  - apply (uses_only_excludes float_alphabet); [apply str_int_alphabet | reflexivity].
  - apply (uses_only_excludes float_alphabet); [apply float_repr_alphabet | reflexivity].
Qed.

Lemma url_without_email_has_no_amp_e (t : Token) (v : Vehicle) :
  has_amp_e (requested_url float_repr false t v) = false.
Proof using float_repr_alphabet.
  unfold requested_url, ApiImpl.geocode_url. simpl.
  rewrite has_amp_e_skip by apply str_coord_no_ampersand. simpl.
  rewrite has_amp_e_skip by apply str_coord_no_ampersand. reflexivity.
Qed.
End RequestUrl.

Lemma contains_app_r (needle a hay : string) :
  contains needle hay → contains needle (a ++ hay).
Proof.
  intros (pre & post & ->). exists (a ++ pre), post.
  symmetry. apply string_app_assoc.
Qed.

Lemma requests_app (tr1 tr2 : list event) :
  requests (tr1 ++ tr2) = (requests tr1 ++ requests tr2)%list.
Proof.
  induction tr1 as [| [url | m] tr1 IH]; simpl;
    [reflexivity | by rewrite IH | exact IH].
Qed.

(** The requests of one run: none when the guard is closed, one GET of the
    URL otherwise, whatever the service answers. *)
Lemma geocode_requests float_repr network json
    (token vehicle : ref) (use_email : bool) (s : state)
    (t : Token) (v : Vehicle) :
  heap s !! token = Some (OToken t) →
  heap s !! vehicle = Some (OVehicle v) →
  requests (trace (ApiImpl.update_geocoded_location float_repr network json
                     token vehicle use_email s).2)
  = (requests (trace s)
     ++ (if truthy (location_latitude v) && truthy (location_longitude v)
         then [requested_url float_repr use_email t v] else []))%list.
Proof.
  intros Ht Hv.
  destruct (truthy (location_latitude v) && truthy (location_longitude v))
    eqn:Hguard.
  - apply andb_true_iff in Hguard as [Hlat Hlon].
    destruct (network (requested_url float_repr use_email t v))
      as [cls | r] eqn:Hnet.
    + rewrite (geocode_network_error float_repr network json token vehicle
                 use_email s t v Ht Hv Hlat Hlon cls Hnet).
      simpl. by rewrite requests_app.
    + destruct (json r) as [e | j] eqn:Hjson;
        [destruct (is_JSONDecodeError e) eqn:He;
           [apply is_JSONDecodeError_true in He as -> |] |].
      * rewrite (geocode_decode_failure float_repr network json token vehicle
                   use_email s t v Ht Hv Hlat Hlon r Hnet Hjson).
        simpl. by rewrite requests_app.
      * rewrite (geocode_decoder_raises float_repr network json token vehicle
                   use_email s t v Ht Hv Hlat Hlon r e Hnet Hjson He).
        simpl. by rewrite requests_app.
      * rewrite (geocode_decoded float_repr network json token vehicle
                   use_email s t v Ht Hv Hlat Hlon r j Hnet Hjson).
        simpl. by rewrite requests_app.
  - rewrite (geocode_guard_closed float_repr network json token vehicle
               use_email s v Hv Hguard).
    simpl. by rewrite app_nil_r.
Qed.

Lemma sample_float_repr_alphabet (f : spec_float) :
  uses_only float_alphabet (sample_float_repr f) = true.
Proof.
  destruct f as [[] | [] | | sign m e]; try reflexivity.
  unfold sample_float_repr.
  destruct sign, ((m =? 97)%positive && (e =? -1)%Z),
    ((m =? 5)%positive && (e =? -1)%Z); reflexivity.
Qed.

(** C7: for a vehicle with both coordinates set, the helper requests
    nothing but the reverse-geocoding URL (once, when the guard is open),
    and that URL carries lat=<latitude>, lon=<longitude>, format=json,
    addressdetails=1 and zoom=18; it contains &email=<token.username>
    exactly when use_email is true. *)
Theorem request_url_query_parameters float_repr network json
    (token vehicle : ref) (use_email : bool) (s : state)
    (t : Token) (v : Vehicle) (latitude longitude : pynum) :
  (∀ f, uses_only float_alphabet (float_repr f) = true) →
  heap s !! token = Some (OToken t) →
  heap s !! vehicle = Some (OVehicle v) →
  location_latitude v = Some latitude →
  location_longitude v = Some longitude →
  requests (trace (ApiImpl.update_geocoded_location float_repr network json
                     token vehicle use_email s).2)
  = (requests (trace s)
     ++ (if num_truthy latitude && num_truthy longitude
         then [requested_url float_repr use_email t v] else []))%list
  ∧ requested_url float_repr use_email t v
    = "https://nominatim.openstreetmap.org/reverse?lat="
      ++ str float_repr latitude
      ++ "&lon="
      ++ str float_repr longitude
      ++ "&format=json&addressdetails=1&zoom=18"
      ++ (if use_email then "&email=" ++ username t else "")
  ∧ contains ("lat=" ++ str float_repr latitude)
      (requested_url float_repr use_email t v)
  ∧ contains ("lon=" ++ str float_repr longitude)
      (requested_url float_repr use_email t v)
  ∧ contains "format=json" (requested_url float_repr use_email t v)
  ∧ contains "addressdetails=1" (requested_url float_repr use_email t v)
  ∧ contains "zoom=18" (requested_url float_repr use_email t v)
  ∧ (contains ("&email=" ++ username t)
       (requested_url float_repr use_email t v)
     ↔ use_email = true).
Proof.
  intros Halphabet Ht Hv Hlat Hlon.
  split.
  { rewrite (geocode_requests float_repr network json token vehicle
               use_email s t v Ht Hv), Hlat, Hlon. reflexivity. }
  assert (Hurl : requested_url float_repr use_email t v
                 = "https://nominatim.openstreetmap.org/reverse?lat="
                   ++ str float_repr latitude
                   ++ "&lon="
                   ++ str float_repr longitude
                   ++ "&format=json&addressdetails=1&zoom=18"
                   ++ (if use_email then "&email=" ++ username t else "")).
  { unfold requested_url, ApiImpl.geocode_url. rewrite Hlat, Hlon.
    reflexivity. }
  split; [exact Hurl |].
  split.
  { rewrite Hurl.
    exists "https://nominatim.openstreetmap.org/reverse?". eexists.
    reflexivity. }
  split.
  { rewrite Hurl. do 2 apply contains_app_r.
    exists "&". eexists. reflexivity. }
  split.
  { rewrite Hurl. do 4 apply contains_app_r.
    exists "&". eexists. reflexivity. }
  split.
  { rewrite Hurl. do 4 apply contains_app_r.
    exists "&format=json&". eexists. reflexivity. }
  split.
  { rewrite Hurl. do 4 apply contains_app_r.
    exists "&format=json&addressdetails=1&". eexists. reflexivity. }
  split.
  - intros Hemail. destruct use_email; [reflexivity |]. exfalso.
    apply (has_amp_e_of_contains ("mail=" ++ username t)) in Hemail.
    rewrite (url_without_email_has_no_amp_e float_repr Halphabet) in Hemail.
    discriminate Hemail.
  - intros ->. rewrite Hurl. do 4 apply contains_app_r.
    exists "&format=json&addressdetails=1&zoom=18", "".
    by rewrite string_app_empty_r.
Qed.

Lemma request_url_query_parameters_witness :
  (∀ f, uses_only float_alphabet (sample_float_repr f) = true)
  ∧ heap sample_state !! sample_token_ref = Some (OToken sample_token)
  ∧ heap sample_state !! sample_vehicle_ref = Some (OVehicle sample_vehicle)
  ∧ location_latitude sample_vehicle
    = Some (PyFloat (S754_finite false 97 (-1)))
  ∧ location_longitude sample_vehicle
    = Some (PyFloat (S754_finite false 5 (-1)))
  ∧ requests
      (trace (ApiImpl.update_geocoded_location sample_float_repr
                (service_answers sample_response)
                (decodes_to (PyDict sample_body))
                sample_token_ref sample_vehicle_ref true sample_state).2)
    = ["https://nominatim.openstreetmap.org/reverse?lat=48.5&lon=2.5&format=json&addressdetails=1&zoom=18&email=driver@example.org"].
Proof.
  split; [exact sample_float_repr_alphabet |].
  repeat (split; [reflexivity |]).
  destruct (request_url_query_parameters sample_float_repr
              (service_answers sample_response)
              (decodes_to (PyDict sample_body))
              sample_token_ref sample_vehicle_ref true sample_state
              sample_token sample_vehicle
              (PyFloat (S754_finite false 97 (-1)))
              (PyFloat (S754_finite false 5 (-1)))
              sample_float_repr_alphabet eq_refl eq_refl eq_refl eq_refl)
    as [Hrequests _].
  rewrite Hrequests. reflexivity.
Defined.

(** * Further properties of the geocoding helper *)

(** Whenever the helper raises, whatever the exception and whatever the
    store holds, the store is the one it started from: a failed call leaves
    no half-written vehicle behind. *)
Theorem exception_leaves_store float_repr network json
    (token vehicle : ref) (use_email : bool) (s : state) (e : exn) :
  (ApiImpl.update_geocoded_location float_repr network json
     token vehicle use_email s).1 = Raise e →
  heap (ApiImpl.update_geocoded_location float_repr network json
          token vehicle use_email s).2 = heap s.
Proof.
  unfold_monad.
  destruct (heap s !! vehicle) as [[tk | v] | ] eqn:Hv; simpl;
    try reflexivity.
  destruct (truthy (location_latitude v) && truthy (location_longitude v));
    simpl; [| reflexivity].
  destruct use_email; simpl.
  - destruct (heap s !! token) as [[t | v0] | ] eqn:Ht; simpl;
      try reflexivity.
    destruct (network _) as [cls | r]; simpl; [reflexivity |].
    destruct (json r) as [e0 | j]; simpl;
      [destruct (is_JSONDecodeError e0); simpl; [| reflexivity] |];
      rewrite Hv; simpl; discriminate.
  - destruct (network _) as [cls | r]; simpl; [reflexivity |].
    destruct (json r) as [e0 | j]; simpl;
      [destruct (is_JSONDecodeError e0); simpl; [| reflexivity] |];
      rewrite Hv; simpl; discriminate.
Qed.

Lemma exception_leaves_store_witness :
  (ApiImpl.update_geocoded_location sample_float_repr service_unreachable
     undecodable sample_token_ref sample_vehicle_ref true sample_state).1
  = Raise (RequestException "ConnectionError")
  ∧ heap (ApiImpl.update_geocoded_location sample_float_repr
            service_unreachable undecodable
            sample_token_ref sample_vehicle_ref true sample_state).2
    = heap sample_state.
Proof.
  split; [reflexivity |].
  apply (exception_leaves_store sample_float_repr service_unreachable
           undecodable sample_token_ref sample_vehicle_ref true sample_state
           (RequestException "ConnectionError") eq_refl).
Defined.



(** Every vehicle of the store comes out of the helper with all its fields
    but geocode as they were, in every outcome, and a vehicle other than the
    argument comes out identical. *)
Theorem vehicles_keep_their_fields float_repr network json
    (token vehicle : ref) (use_email : bool) (s : state)
    (l : ref) (v : Vehicle) :
  heap s !! l = Some (OVehicle v) →
  ∃ v',
    heap (ApiImpl.update_geocoded_location float_repr network json
            token vehicle use_email s).2 !! l = Some (OVehicle v')
    ∧ same_but_geocode v v'
    ∧ (l ≠ vehicle → v' = v).
Proof.
  intros Hl.
  destruct (geocode_store_frame float_repr network json token vehicle
              use_email s) as [-> | (v0 & g & Hv & ->)].
  - exists v. split; [exact Hl |]. split; [repeat split | reflexivity].
  - destruct (decide (l = vehicle)) as [-> | Hne].
    + rewrite Hv in Hl. injection Hl as ->.
      exists (with_geocode g v). rewrite lookup_insert_eq.
      split; [reflexivity |].
      split; [apply with_geocode_same_but_geocode | congruence].
    + exists v. rewrite lookup_insert_ne by congruence.
      split; [exact Hl |]. split; [repeat split | reflexivity].
Qed.

Lemma vehicles_keep_their_fields_witness :
  heap sample_state !! sample_vehicle_ref = Some (OVehicle sample_vehicle)
  ∧ ∃ v',
      heap (ApiImpl.update_geocoded_location sample_float_repr
              (service_answers sample_response)
              (decodes_to (PyDict sample_body))
              sample_token_ref sample_vehicle_ref true sample_state).2
        !! sample_vehicle_ref = Some (OVehicle v')
      ∧ same_but_geocode sample_vehicle v'
      ∧ (sample_vehicle_ref ≠ sample_vehicle_ref → v' = sample_vehicle).
Proof.
  split; [reflexivity |].
  apply (vehicles_keep_their_fields sample_float_repr
           (service_answers sample_response)
           (decodes_to (PyDict sample_body))
           sample_token_ref sample_vehicle_ref true sample_state
           sample_vehicle_ref sample_vehicle eq_refl).
Defined.

Section Repeat.
Variable float_repr : spec_float → string.
Variable network : string → string + Response.
Variable json : Response → exn + pyval.
Variables token vehicle : ref.
Variable use_email : bool.

#[local] Abbreviation geocode_again :=
  (ApiImpl.update_geocoded_location float_repr network json
     token vehicle use_email).

(** Calling the helper a second time, with the service answering as
    before, gives the same result as the first call and leaves the store
    the first call produced: the helper is idempotent on the store. *)
Theorem geocoding_idempotent (s : state) (t : Token) (v : Vehicle) :
  heap s !! token = Some (OToken t) →
  heap s !! vehicle = Some (OVehicle v) →
  (geocode_again (geocode_again s).2).1 = (geocode_again s).1
  ∧ heap (geocode_again (geocode_again s).2).2 = heap (geocode_again s).2.
Proof using Type.
  intros Ht Hv.
  assert (Hne : token ≠ vehicle) by (intros ->; congruence).
  destruct (truthy (location_latitude v) && truthy (location_longitude v))
    eqn:Hguard.
  - apply andb_true_iff in Hguard as [Hlat Hlon].
    destruct (network (requested_url float_repr use_email t v))
      as [cls | r] eqn:Hnet.
    + rewrite (geocode_network_error float_repr network json token vehicle
                 use_email s t v Ht Hv Hlat Hlon cls Hnet). simpl.
      by rewrite (geocode_network_error float_repr network json token vehicle
                    use_email (mkState (heap s) _) t v Ht Hv Hlat Hlon
                    cls Hnet).
    + destruct (json r) as [e | j] eqn:Hjson;
        [destruct (is_JSONDecodeError e) eqn:He;
           [apply is_JSONDecodeError_true in He as -> |] |].
      * rewrite (geocode_decode_failure float_repr network json token vehicle
                   use_email s t v Ht Hv Hlat Hlon r Hnet Hjson). simpl.
        match goal with
        | |- context [geocode_again ?s1] =>
            assert (Ht1 : heap s1 !! token = Some (OToken t))
              by (simpl; by rewrite lookup_insert_ne);
            assert (Hv1 : heap s1 !! vehicle
                          = Some (OVehicle (with_geocode None v)))
              by (simpl; by rewrite lookup_insert_eq);
            rewrite (geocode_decode_failure float_repr network json token
                       vehicle use_email s1 t _ Ht1 Hv1 Hlat Hlon r
                       Hnet Hjson)
        end.
        simpl. split; [reflexivity |]. by rewrite insert_insert_eq.
      * rewrite (geocode_decoder_raises float_repr network json token vehicle
                   use_email s t v Ht Hv Hlat Hlon r e Hnet Hjson He). simpl.
        by rewrite (geocode_decoder_raises float_repr network json token
                      vehicle use_email (mkState (heap s) _) t v Ht Hv
                      Hlat Hlon r e Hnet Hjson He).
      * rewrite (geocode_decoded float_repr network json token vehicle
                   use_email s t v Ht Hv Hlat Hlon r j Hnet Hjson). simpl.
        match goal with
        | |- context [geocode_again ?s1] =>
            assert (Ht1 : heap s1 !! token = Some (OToken t))
              by (simpl; by rewrite lookup_insert_ne);
            assert (Hv1 : heap s1 !! vehicle
                          = Some (OVehicle
                                    (with_geocode
                                       (Some (get_child_value j "display_name",
                                              get_child_value j "address"))
                                       v)))
              by (simpl; by rewrite lookup_insert_eq);
            rewrite (geocode_decoded float_repr network json token vehicle
                       use_email s1 t _ Ht1 Hv1 Hlat Hlon r j Hnet Hjson)
        end.
        simpl. split; [reflexivity |]. by rewrite insert_insert_eq.
  - rewrite (geocode_guard_closed float_repr network json token vehicle
               use_email s v Hv Hguard). simpl.
    by rewrite (geocode_guard_closed float_repr network json token vehicle
                  use_email s v Hv Hguard).
Qed.
End Repeat.

Lemma geocoding_idempotent_witness :
  heap sample_state !! sample_token_ref = Some (OToken sample_token)
  ∧ heap sample_state !! sample_vehicle_ref = Some (OVehicle sample_vehicle)
  ∧ heap (ApiImpl.update_geocoded_location sample_float_repr
            (service_answers sample_response)
            (decodes_to (PyDict sample_body))
            sample_token_ref sample_vehicle_ref true
            (ApiImpl.update_geocoded_location sample_float_repr
               (service_answers sample_response)
               (decodes_to (PyDict sample_body))
               sample_token_ref sample_vehicle_ref true sample_state).2).2
    = heap (ApiImpl.update_geocoded_location sample_float_repr
              (service_answers sample_response)
              (decodes_to (PyDict sample_body))
              sample_token_ref sample_vehicle_ref true sample_state).2.
Proof.
  split; [reflexivity |]. split; [reflexivity |].
  exact (proj2 (geocoding_idempotent sample_float_repr
                  (service_answers sample_response)
                  (decodes_to (PyDict sample_body))
                  sample_token_ref sample_vehicle_ref true sample_state
                  sample_token sample_vehicle eq_refl eq_refl)).
Defined.

(** The token is consulted only to build the email parameter: with
    use_email false, or with the guard closed, the helper does the same
    whichever reference is passed as token, one that holds no Token
    included. *)
Theorem token_consulted_only_for_email float_repr network json
    (token token' vehicle : ref) (use_email : bool) (s : state) (v : Vehicle) :
  heap s !! vehicle = Some (OVehicle v) →
  use_email = false
  ∨ truthy (location_latitude v) && truthy (location_longitude v) = false →
  ApiImpl.update_geocoded_location float_repr network json
    token vehicle use_email s
  = ApiImpl.update_geocoded_location float_repr network json
      token' vehicle use_email s.
Proof.
  intros Hv [-> | Hguard].
  - reflexivity.
  - by rewrite !(geocode_guard_closed float_repr network json _ vehicle
                   use_email s v Hv Hguard).
Qed.

Lemma token_consulted_only_for_email_witness :
  heap sample_state !! sample_vehicle_ref = Some (OVehicle sample_vehicle)
  ∧ ApiImpl.update_geocoded_location sample_float_repr
      (service_answers sample_response) (decodes_to (PyDict sample_body))
      sample_token_ref sample_vehicle_ref false sample_state
    = ApiImpl.update_geocoded_location sample_float_repr
        (service_answers sample_response) (decodes_to (PyDict sample_body))
        sample_vehicle_ref sample_vehicle_ref false sample_state.
Proof.
  split; [reflexivity |].
  apply (token_consulted_only_for_email sample_float_repr
           (service_answers sample_response)
           (decodes_to (PyDict sample_body))
           sample_token_ref sample_vehicle_ref sample_vehicle_ref false
           sample_state sample_vehicle eq_refl (or_introl eq_refl)).
Defined.

